(** * Curve matching of [DataProcessor] (src/database.py)

    A shallow embedding of the two algorithmic methods of [DataProcessor],
    [_find_best_fit] and [_find_best_match], together with [map_test_data],
    [load_data_to_db], the pipeline of [main] and the few pandas /
    scikit-learn operations they call.

    Numbers.  The cells of the tables are modelled as exact rationals ([Q]);
    rounding, overflow and wrap-around of machine arithmetic are not
    modelled there, and the statements proved over these definitions are
    those that do not depend on them, or evaluate the code where every
    operation is exact.  The two special values that the code itself
    manufactures are kept: [float('inf')], the initial value of both running
    minima, and NaN, which [Series.max()] returns when no label of the two
    operands of [-] is shared.  For the selection loop of [_find_best_fit]
    there is a second embedding, [Measured], in which the value of
    [mean_squared_error] is a parameter, so that what is proved of the loop
    holds for the rounded and overflowing values of binary64.

    Exceptions.  Python exceptions are modelled in the error monad
    [sum exn] of ExtLib: [inl e] is "raised e", [inr v] is "returned v". *)

From Stdlib Require Import QArith Qabs List String Bool Arith Lia Lqa DecimalString.
From Stdlib Require Import SpecFloat.
From ExtLib Require Import Structures.Monad Structures.MonadExc Data.Monads.EitherMonad.
Import ListNotations.
Import MonadNotation.
Local Open Scope monad_scope.
Local Open Scope Q_scope.

(** ** Exceptions and results *)

(** The exceptions that the modelled statements can raise.  [KeyError] comes
    from label lookups ([df[col]], [df.loc[x, col]], [set_index]);
    [ValueError] from [mean_squared_error] (inconsistent or empty input) and
    from taking the truth value of a Series on line 183;
    [OperationalError] (sqlalchemy) from [to_sql] on a frame without
    columns, for which no table can be created. *)
Inductive exn : Type :=
| KeyError
| ValueError
| OperationalError.

Definition result (A : Type) : Type := sum exn A.

Notation Ok := (@inr exn _).
Notation Raise := (@inl exn _).

#[global] Instance Monad_result : Monad result := Monad_either exn.

(** ** Floats as the code produces them *)

Inductive pyfloat : Type :=
| Fin (q : Q)
| Inf
| NaN.

(** [d <= f] and [d < f] for a finite [d]; every comparison with NaN is
    false, as in Python. *)
Definition Qlt_bool (a b : Q) : bool := negb (Qle_bool b a).

Definition le_float (d : Q) (f : pyfloat) : bool :=
  match f with
  | Fin q => Qle_bool d q
  | Inf => true
  | NaN => false
  end.

Definition lt_float (d : Q) (f : pyfloat) : bool :=
  match f with
  | Fin q => Qlt_bool d q
  | Inf => true
  | NaN => false
  end.

(** [k * f] for a finite positive [k]. *)
Definition mul_float (k : Q) (f : pyfloat) : pyfloat :=
  match f with
  | Fin q => Fin (k * q)
  | Inf => Inf
  | NaN => NaN
  end.

(** [np.sqrt(2)]: the double nearest to the square root of two,
    [0x3FF6A09E667F3BCD], that is 6369051672525773 / 2^52. *)
Definition np_sqrt2 : Q := 6369051672525773 # 4503599627370496.

(** ** Series and data frames *)

(** A pandas Series: labels and values, position by position. *)
Record Series : Type := mkSeries {
  s_index : list Q;
  s_values : list Q
}.

(** A pandas DataFrame with numeric cells: the row labels and the named
    columns, in column order. *)
Record DataFrame : Type := mkDataFrame {
  df_index : list Q;
  df_columns : list (string * list Q)
}.

(** [df.columns] *)
Definition columns (df : DataFrame) : list string := map fst (df_columns df).

(** The default [RangeIndex] of a frame of [n] rows: 0, 1, ..., n-1. *)
Definition RangeIndex (n : nat) : list Q :=
  map (fun i => inject_Z (Z.of_nat i)) (seq 0 n).

Fixpoint assoc (name : string) (cols : list (string * list Q)) : option (list Q) :=
  match cols with
  | [] => None
  | (c, v) :: rest => if String.eqb name c then Some v else assoc name rest
  end.

(** [pd.read_sql(...)]: the columns of the table under a fresh RangeIndex. *)
Definition read_sql (table : list (string * list Q)) : DataFrame :=
  mkDataFrame (RangeIndex (match table with [] => 0 | (_, v) :: _ => List.length v end))
              table.

(** [df[col]]: the column as a Series over the frame's index; [KeyError]
    when there is no such column.  The column found by [_find_best_fit] may
    be [None], which is never a column label. *)
Definition getitem (df : DataFrame) (col : string) : result Series :=
  match assoc col (df_columns df) with
  | Some v => Ok (mkSeries (df_index df) v)
  | None => Raise KeyError
  end.

Definition getitem_opt (df : DataFrame) (col : option string) : result Series :=
  match col with
  | Some c => getitem df c
  | None => Raise KeyError
  end.

Fixpoint remove_col (name : string) (cols : list (string * list Q))
  : list (string * list Q) :=
  match cols with
  | [] => []
  | (c, v) :: rest =>
      if String.eqb name c then rest else (c, v) :: remove_col name rest
  end.

(** [df.set_index(col)]: the column becomes the row labels and leaves the
    columns. *)
Definition set_index (df : DataFrame) (col : string) : result DataFrame :=
  match assoc col (df_columns df) with
  | Some v => Ok (mkDataFrame v (remove_col col (df_columns df)))
  | None => Raise KeyError
  end.

(** The cells of [values] at the positions whose label equals [x]. *)
Fixpoint cells_at (x : Q) (index values : list Q) : list Q :=
  match index, values with
  | l :: index', v :: values' =>
      if Qeq_bool l x then v :: cells_at x index' values'
      else cells_at x index' values'
  | _, _ => []
  end.

(** [df.loc[x, col]]: [KeyError] when the column or the row label is
    missing; otherwise the cells of the column at every row labelled [x]:
    one cell is a scalar, several cells are a Series. *)
Definition loc (df : DataFrame) (x : Q) (col : option string) : result (list Q) :=
  s <- getitem_opt df col ;;
  match cells_at x (s_index s) (s_values s) with
  | [] => Raise KeyError
  | cells => Ok cells
  end.

(** [abs(a - b).max()].  Subtraction of two Series aligns them on their
    labels: a label carried by both operands yields the difference of the
    two cells, a label carried by one operand only yields NaN.  [max] skips
    NaN and is NaN itself when nothing else is left. *)
Definition Qmax_bool (a b : Q) : Q := if Qle_bool a b then b else a.

Definition aligned_abs_diff (a b : Series) : list Q :=
  flat_map
    (fun la =>
       map (fun vb => Qabs (snd la - vb))
           (cells_at (fst la) (s_index b) (s_values b)))
    (combine (s_index a) (s_values a)).

Definition max_skipna (l : list Q) : pyfloat :=
  match l with
  | [] => NaN
  | v :: rest => Fin (fold_left Qmax_bool rest v)
  end.

Definition abs_diff_max (a b : Series) : pyfloat :=
  max_skipna (aligned_abs_diff a b).

(** ** [sklearn.metrics.mean_squared_error] *)

Definition Qsum (l : list Q) : Q := fold_right Qplus 0 l.

Definition squared_errors (y_true y_pred : list Q) : list Q :=
  map (fun p => (fst p - snd p) * (fst p - snd p)) (combine y_true y_pred).

(** The two arguments are taken as arrays, position by position (labels are
    dropped).  [ValueError] when the numbers of samples differ or when there
    is no sample. *)
Definition mean_squared_error (y_true y_pred : list Q) : result Q :=
  if negb (List.length y_true =? List.length y_pred)%nat then Raise ValueError
  else if (List.length y_true =? 0)%nat then Raise ValueError
  else Ok (Qsum (squared_errors y_true y_pred) / inject_Z (Z.of_nat (List.length y_true))).

(** ** [DataProcessor._find_best_fit] (lines 131-154) *)

(** The loop of lines 149-153 with its two variables [min_mse] and
    [best_func]. *)
Fixpoint best_fit_loop (training_series : Series) (ideal_df : DataFrame)
    (cols : list string) (min_mse : pyfloat) (best_func : option string)
  : result (option string) :=
  match cols with
  | [] => Ok best_func
  | col :: rest =>
      s <- getitem ideal_df col ;;
      mse <- mean_squared_error (s_values training_series) (s_values s) ;;
      if lt_float mse min_mse
      then best_fit_loop training_series ideal_df rest (Fin mse) (Some col)
      else best_fit_loop training_series ideal_df rest min_mse best_func
  end.

Definition _find_best_fit (training_series : Series) (ideal_df : DataFrame)
  : result (option string) :=
  best_fit_loop training_series ideal_df (columns ideal_df) Inf None.

(** ** [_find_best_fit] over the values that [mean_squared_error] returns

    [mean_squared_error] belongs to scikit-learn and computes in binary64:
    its value is rounded, and is inf when a squared difference overflows.
    Here its value is a parameter: [measure col] stands for
    [mean_squared_error(training_series, ideal_df[col])], a float or an
    exception, and the loop of lines 147-154 is the source's.  The value is
    a mean of squares, so it is never below zero. *)

(** [a < b] and [a <= b] on floats that are not below zero. *)
Definition float_ltb (a b : pyfloat) : bool :=
  match a, b with
  | Fin x, Fin y => Qlt_bool x y
  | Fin _, Inf => true
  | _, _ => false
  end.


Module Measured.

Section Selection.

Variable measure : string -> result pyfloat.

Fixpoint best_fit_loop (cols : list string) (min_mse : pyfloat)
    (best_func : option string) : result (option string) :=
  match cols with
  | [] => Ok best_func
  | col :: rest =>
      mse <- measure col ;;
      if float_ltb mse min_mse
      then best_fit_loop rest mse (Some col)
      else best_fit_loop rest min_mse best_func
  end.

Definition _find_best_fit (cols : list string) : result (option string) :=
  best_fit_loop cols Inf None.

End Selection.

End Measured.

(** The measure of exact arithmetic: the mean squared error over the
    rationals, as a float. *)
Definition exact_measure (training_series : Series) (ideal_df : DataFrame)
    (col : string) : result pyfloat :=
  mse <- (s <- getitem ideal_df col ;;
          mean_squared_error (s_values training_series) (s_values s)) ;;
  ret (Fin mse).



(** ** [DataProcessor._find_best_match] (lines 156-186) *)

(** [f'y{n}'] *)
Definition fstring_y (n : nat) : string :=
  ("y" ++ NilEmpty.string_of_uint (Nat.to_uint n))%string.

(** Line 182, which sits inside the loop over the test point's candidates. *)
Definition max_allowed_deviation (training_df ideal_df : DataFrame)
    (idx : nat) (ideal_func : option string) : result pyfloat :=
  t <- getitem training_df (fstring_y (idx + 1)) ;;
  c <- getitem_opt ideal_df ideal_func ;;
  ret (mul_float np_sqrt2 (abs_diff_max t c)).

(** Line 183 evaluated on what line 181 produced: with a scalar the two
    comparisons are booleans; with a Series [and] asks for its truth value,
    which raises [ValueError]. *)
Definition scalar (cells : list Q) : result Q :=
  match cells with
  | [v] => Ok v
  | _ => Raise ValueError
  end.

(** The loop of lines 180-185 over [enumerate(best_fit_funcs)], from
    position [idx] on, with its variables [min_deviation] and [best_fit]. *)
Fixpoint best_match_loop (x_val y_val : Q) (ideal_df training_df : DataFrame)
    (idx : nat) (funcs : list (option string))
    (min_deviation : pyfloat) (best_fit : option nat)
  : result (option nat * pyfloat) :=
  match funcs with
  | [] => Ok (best_fit, min_deviation)
  | ideal_func :: rest =>
      cells <- loc ideal_df x_val ideal_func ;;
      max_allowed <- max_allowed_deviation training_df ideal_df idx ideal_func ;;
      v <- scalar cells ;;
      let deviation := Qabs (y_val - v) in
      if le_float deviation max_allowed && lt_float deviation min_deviation
      then best_match_loop x_val y_val ideal_df training_df (S idx) rest
             (Fin deviation) (Some (idx + 1)%nat)
      else best_match_loop x_val y_val ideal_df training_df (S idx) rest
             min_deviation best_fit
  end.

Definition _find_best_match (x_val y_val : Q) (best_fit_funcs : list (option string))
    (ideal_df training_df : DataFrame) : result (option nat * pyfloat) :=
  best_match_loop x_val y_val ideal_df training_df 0 best_fit_funcs Inf None.

(** ** [DataProcessor.map_test_data] (lines 104-129) *)

(** One dictionary appended to [results] on line 125. *)
Record ResultRow : Type := mkRow {
  row_x : Q;
  row_y : Q;
  delta_y : pyfloat;
  ideal_func_no : option nat
}.

(** Lines 117-120: the best fit of each of [y1] .. [y4]. *)
Fixpoint best_fits (training_df ideal_df : DataFrame) (numbers : list nat)
  : result (list (option string)) :=
  match numbers with
  | [] => ret []
  | i :: rest =>
      t <- getitem training_df (fstring_y i) ;;
      best_func <- _find_best_fit t ideal_df ;;
      others <- best_fits training_df ideal_df rest ;;
      ret (best_func :: others)
  end.

(** Lines 122-125: one row per test point, in the order of the test data. *)
Fixpoint match_rows (test_rows : list (Q * Q)) (best_fit_funcs : list (option string))
    (ideal_df training_df : DataFrame) : result (list ResultRow) :=
  match test_rows with
  | [] => ret []
  | (x, y) :: rest =>
      r <- _find_best_match x y best_fit_funcs ideal_df training_df ;;
      others <- match_rows rest best_fit_funcs ideal_df training_df ;;
      ret (mkRow x y (snd r) (fst r) :: others)
  end.

(** Lines 127-128: [pd.DataFrame(results)] has the four columns of the
    dictionaries, and no column at all when [results] is empty; storing a
    frame without columns raises [OperationalError]. *)
Definition results_to_sql (results : list ResultRow) : result unit :=
  match results with
  | [] => Raise OperationalError
  | _ :: _ => Ok tt
  end.

(** [test_rows] are the (x, y) rows of the test file; [ideal_table] and
    [training_table] are the two tables read back from the database. *)
Definition map_test_data (test_rows : list (Q * Q))
    (ideal_table training_table : list (string * list Q)) : result (list ResultRow) :=
  ideal_df <- set_index (read_sql ideal_table) "x" ;;
  let training_df := read_sql training_table in
  best_fit_funcs <- best_fits training_df ideal_df (seq 1 4) ;;
  results <- match_rows test_rows best_fit_funcs ideal_df training_df ;;
  _ <- results_to_sql results ;;
  ret results.

(** ** Derived notions used in the statements *)

(** The mean squared error of one candidate column against a training
    series, as the body of the loop of [_find_best_fit] computes it. *)
Definition column_mse (training_series : Series) (ideal_df : DataFrame)
    (col : string) : result Q :=
  s <- getitem ideal_df col ;;
  mean_squared_error (s_values training_series) (s_values s).

(** Lines 181-183 for one candidate: the deviation of the test point from
    the candidate and the tolerance it is compared with.  The three
    statements are kept in the order in which the loop runs them. *)
Definition candidate_eval (x_val y_val : Q) (ideal_df training_df : DataFrame)
    (idx : nat) (ideal_func : option string) : result (Q * pyfloat) :=
  cells <- loc ideal_df x_val ideal_func ;;
  max_allowed <- max_allowed_deviation training_df ideal_df idx ideal_func ;;
  v <- scalar cells ;;
  ret (Qabs (y_val - v), max_allowed).



(** The row label [x] does not occur in the index of the frame. *)
Definition absent (x : Q) (index : list Q) : Prop :=
  forall l, In l index -> ~ l == x.

(** The tolerance in the words of the specification: the factor times the
    greatest absolute difference between the training series and the
    candidate over the x values they share.  The training series is read as
    a function of its own [x] column. *)
Definition spec_max_allowed_deviation (training_x training_y : list Q)
    (candidate : Series) : pyfloat :=
  mul_float np_sqrt2 (abs_diff_max (mkSeries training_x training_y) candidate).

(** ** The matcher of the specification (sections 3 and 4.2)

    The second, specification-side definitions: the FitAssignment with the
    tolerance in the words of the specification, derived once, and the
    matcher that reads it. *)





(** ** Concrete tables *)

Definition column (name : string) (values : list Q) : string * list Q := (name, values).

(** The scenario of the specification: training series y = x and y = 2x,
    candidates y1 = x and y2 = 2x, over x in {0, 1, 2}. *)
Definition scenario_training : list (string * list Q) :=
  [column "x" [0; 1; 2]; column "y1" [0; 1; 2]; column "y2" [0; 2; 4];
   column "y3" [0; 1; 2]; column "y4" [0; 2; 4]].

Definition scenario_ideal : list (string * list Q) :=
  [column "x" [0; 1; 2]; column "y1" [0; 1; 2]; column "y2" [0; 2; 4]].

Definition scenario_training_df : DataFrame := read_sql scenario_training.

Definition scenario_ideal_df : DataFrame :=
  mkDataFrame [0; 1; 2] [column "y1" [0; 1; 2]; column "y2" [0; 2; 4]].

Definition scenario_funcs : list (option string) :=
  [Some "y1"; Some "y2"; Some "y1"; Some "y2"]%string.

(** The same curves sampled at x in {1, 2, 3}: every training series
    coincides with the single candidate y1 = x at every x. *)
Definition shifted_training : list (string * list Q) :=
  [column "x" [1; 2; 3]; column "y1" [1; 2; 3]; column "y2" [1; 2; 3];
   column "y3" [1; 2; 3]; column "y4" [1; 2; 3]].

Definition shifted_ideal : list (string * list Q) :=
  [column "x" [1; 2; 3]; column "y1" [1; 2; 3]].

Definition shifted_ideal_df : DataFrame :=
  mkDataFrame [1; 2; 3] [column "y1" [1; 2; 3]].

Definition shifted_funcs : list (option string) :=
  [Some "y1"; Some "y1"; Some "y1"; Some "y1"]%string.


(** Candidates in the other order: y1 = 2x, y2 = x; all four training series
    are y = x, so each of them selects the candidate y2. *)
Definition swapped_training : list (string * list Q) :=
  [column "x" [0; 1; 2]; column "y1" [0; 1; 2]; column "y2" [0; 1; 2];
   column "y3" [0; 1; 2]; column "y4" [0; 1; 2]].

Definition swapped_ideal : list (string * list Q) :=
  [column "x" [0; 1; 2]; column "y1" [0; 2; 4]; column "y2" [0; 1; 2]].

Definition swapped_ideal_df : DataFrame :=
  mkDataFrame [0; 1; 2] [column "y1" [0; 2; 4]; column "y2" [0; 1; 2]].

(** ** [DataProcessor.load_data_to_db] (lines 91-102) and [main] *)

(** [df.columns = names]: the columns are renamed position by position;
    [ValueError] when the number of names is not the number of columns. *)
Definition set_columns (df : DataFrame) (names : list string) : result DataFrame :=
  if (List.length names =? List.length (df_columns df))%nat
  then Ok (mkDataFrame (df_index df) (combine names (map snd (df_columns df))))
  else Raise ValueError.

(** The two tables of the database that [map_test_data] reads back. *)
Record Database : Type := mkDatabase {
  training_data : list (string * list Q);
  ideal_functions : list (string * list Q)
}.

(** [df.to_sql(name, engine, if_exists='replace', index=False)]: the table
    holds the columns of the frame, without its index; a frame without
    columns gives no table and raises [OperationalError]. *)
Definition to_sql (df : DataFrame) : result (list (string * list Q)) :=
  match df_columns df with
  | [] => Raise OperationalError
  | cols => Ok cols
  end.

(** [training_df] and [ideal_df] are the two frames that [_load_csv]
    returned (lines 94-95). *)
Definition load_data_to_db (training_df ideal_df : DataFrame) : result Database :=
  training_df' <- set_columns training_df ["x"; "y1"; "y2"; "y3"; "y4"]%string ;;
  training_table <- to_sql training_df' ;;
  ideal_table <- to_sql ideal_df ;;
  ret (mkDatabase training_table ideal_table).

(** src/main.py, lines 21-25: the data is stored, then the test data is
    mapped; the value is [test_results].  [training_csv] and [ideal_csv]
    are the frames that [_load_csv] returns for the two files. *)
Definition main (training_csv ideal_csv : DataFrame) (test_rows : list (Q * Q))
  : result (list ResultRow) :=
  db <- load_data_to_db training_csv ideal_csv ;;
  map_test_data test_rows (ideal_functions db) (training_data db).

(** ** [DataVisualizer.visualize_data] (src/visualizer.py, line 60) *)

(** [test_data[test_data['ideal_func_no'] == i]]: the rows drawn under the
    legend 'Ideal Func i'.  A null [ideal_func_no] equals no [i]. *)
Definition subset (test_data : list ResultRow) (i : nat) : list ResultRow :=
  filter (fun r => match ideal_func_no r with
                   | Some k => (k =? i)%nat
                   | None => false
                   end) test_data.

(** ** Further derived notions *)


(** The curve y = x sampled at x in {-3, -2, -1}, as training series and as
    the only candidate. *)
Definition negative_training : list (string * list Q) :=
  [column "x" [-3; -2; -1]; column "y1" [-3; -2; -1]; column "y2" [-3; -2; -1];
   column "y3" [-3; -2; -1]; column "y4" [-3; -2; -1]].

Definition negative_ideal_df : DataFrame :=
  mkDataFrame [-3; -2; -1] [column "y1" [-3; -2; -1]].

Definition negative_funcs : list (option string) :=
  [Some "y1"; Some "y1"; Some "y1"; Some "y1"]%string.

(** The training data of the scenario as two frames that [_load_csv] could
    return: the same values under other column names and row labels. *)
Definition scenario_training_csv : DataFrame := read_sql scenario_training.

Definition scenario_training_csv' : DataFrame :=
  mkDataFrame [10; 20; 30]
    [column "t" [0; 1; 2]; column "a" [0; 1; 2]; column "b" [0; 2; 4];
     column "c" [0; 1; 2]; column "d" [0; 2; 4]].

Definition scenario_ideal_csv : DataFrame := read_sql scenario_ideal.

(** The rows of the scenario for the test points (1, 1) and (1, 5). *)
Definition scenario_rows : list ResultRow :=
  [mkRow 1 1 (Fin 0) (Some 1%nat); mkRow 1 5 Inf None].

(** * Proofs *)

(** ** Comparisons *)

Lemma Qlt_bool_iff a b : Qlt_bool a b = true <-> a < b.
Proof.
  unfold Qlt_bool. rewrite negb_true_iff, <- not_true_iff_false, Qle_bool_iff.
  split; [apply Qnot_le_lt | apply Qlt_not_le].
Qed.

Lemma Qlt_bool_false_iff a b : Qlt_bool a b = false <-> b <= a.
Proof.
  unfold Qlt_bool. rewrite negb_false_iff. apply Qle_bool_iff.
Qed.

Lemma lt_float_trans a b f :
  a < b -> lt_float b f = true -> lt_float a f = true.
Proof.
  destruct f as [q| |]; simpl; trivial.
  rewrite !Qlt_bool_iff. intros; lra.
Qed.

Lemma lt_float_between a b f :
  lt_float a f = true -> lt_float b f = false -> a < b.
Proof.
  destruct f as [q| |]; simpl; try discriminate.
  rewrite Qlt_bool_iff, Qlt_bool_false_iff. intros; lra.
Qed.

(** The constant standing for [np.sqrt(2)] squares to 2 within 2^-51. *)
Lemma np_sqrt2_square : Qabs (np_sqrt2 * np_sqrt2 - 2) < 1 # 2251799813685248.
Proof. vm_compute. reflexivity. Qed.

(** ** The error monad *)

Lemma bind_Ok {A B} (c : result A) (k : A -> result B) (b : B) :
  bind c k = Ok b -> exists a, c = Ok a /\ k a = Ok b.
Proof.
  destruct c as [e|a]; simpl; intros H; [discriminate | eauto].
Qed.

Lemma bind_ret_l {A B} (a : A) (k : A -> result B) : bind (Ok a) k = k a.
Proof. reflexivity. Qed.

Lemma bind_raise_l {A B} (e : exn) (k : A -> result B) : bind (Raise e) k = Raise e.
Proof. reflexivity. Qed.

Lemma Ok_inj {A} (a b : A) : Ok a = Ok b -> a = b.
Proof. intros H; injection H; trivial. Qed.

Ltac inv_bind H :=
  let a := fresh "a" in
  let Ha := fresh "Ha" in
  apply bind_Ok in H; destruct H as (a & Ha & H).

(** ** [_find_best_fit] *)

Section BestFit.

Variable training_series : Series.
Variable ideal_df : DataFrame.

Let mse_of := column_mse training_series ideal_df.

Lemma best_fit_loop_step col rest min_mse best_func :
  best_fit_loop training_series ideal_df (col :: rest) min_mse best_func =
  (mse <- mse_of col ;;
   if lt_float mse min_mse
   then best_fit_loop training_series ideal_df rest (Fin mse) (Some col)
   else best_fit_loop training_series ideal_df rest min_mse best_func).
Proof.
  unfold mse_of, column_mse. simpl.
  destruct (getitem ideal_df col); reflexivity.
Qed.

(** What the loop returns, relative to the running minimum it starts from:
    either nothing beats the running minimum and the running best is kept,
    or the first column reaching the least error is returned. *)
Lemma best_fit_loop_spec cols : forall min_mse best_func r,
  best_fit_loop training_series ideal_df cols min_mse best_func = Ok r ->
  (r = best_func /\
   forall c m, In c cols -> mse_of c = Ok m -> lt_float m min_mse = false)
  \/
  (exists pre c post m,
      cols = pre ++ c :: post /\ r = Some c /\ mse_of c = Ok m /\
      lt_float m min_mse = true /\
      (forall c' m', In c' pre -> mse_of c' = Ok m' -> m < m') /\
      (forall c' m', In c' post -> mse_of c' = Ok m' -> m <= m')).
Proof.
  induction cols as [|col rest IH]; intros min_mse best_func r H.
  - simpl in H. apply Ok_inj in H. left. split; [congruence | intros ? ? []].
  - rewrite best_fit_loop_step in H. inv_bind H. rename a into mse.
    destruct (lt_float mse min_mse) eqn:Hlt; apply IH in H;
      destruct H as [[Hr Hall] | (pre & c & post & m & Hc & Hr & Hm & Hmin & Hpre & Hpost)].
    + right. exists [], col, rest, mse. repeat split; trivial.
      * intros ? ? [].
      * intros c' m' Hin Hm'. specialize (Hall _ _ Hin Hm').
        simpl in Hall. now apply Qlt_bool_false_iff.
    + right. exists (col :: pre), c, post, m. subst rest. repeat split; trivial.
      * simpl in Hmin. apply Qlt_bool_iff in Hmin. now apply lt_float_trans with mse.
      * intros c' m' [<- | Hin] Hm'.
        -- assert (m' = mse) by congruence. subst m'.
           simpl in Hmin. now apply Qlt_bool_iff.
        -- eauto.
    + left. split; trivial.
      intros c m [<- | Hin] Hm; [ | eauto].
      assert (m = mse) by congruence. now subst m.
    + right. exists (col :: pre), c, post, m. subst rest. repeat split; trivial.
      intros c' m' [<- | Hin] Hm'; [ | eauto].
      assert (m' = mse) by congruence. subst m'.
      now apply lt_float_between with min_mse.
Qed.

End BestFit.

Lemma assoc_In name cols :
  In name (map fst cols) -> exists v, assoc name cols = Some v /\ In (name, v) cols.
Proof.
  induction cols as [|[c v] rest IH]; simpl; [intros [] | ].
  intros H. destruct (String.eqb_spec name c) as [-> | Hne].
  - exists v. auto.
  - destruct H as [H | H]; [congruence | ].
    destruct (IH H) as (w & Hw & Hin). exists w. auto.
Qed.

(** ** [_find_best_fit] over computed errors *)









Section MeasuredSelection.

Variable measure : string -> result pyfloat.

Let loop := Measured.best_fit_loop measure.



End MeasuredSelection.

(** The selection over the rationals is the selection over the measure of
    exact arithmetic. *)
Lemma find_best_fit_exact_measure training_series ideal_df cols :
  forall min_mse best_func,
    Measured.best_fit_loop (exact_measure training_series ideal_df) cols min_mse best_func
    = best_fit_loop training_series ideal_df cols min_mse best_func.
Proof.
  induction cols as [|col rest IH]; intros min_mse best_func; [reflexivity | ].
  simpl. unfold exact_measure.
  destruct (getitem ideal_df col) as [e|s]; simpl; trivial.
  destruct (mean_squared_error (s_values training_series) (s_values s)) as [e|m];
    simpl; trivial.
  destruct min_mse as [q| |]; simpl; try apply IH.
  destruct (Qlt_bool m q); apply IH.
Qed.

Lemma find_best_fit_exact_measure' training_series ideal_df :
  Measured._find_best_fit (exact_measure training_series ideal_df) (columns ideal_df)
  = _find_best_fit training_series ideal_df.
Proof. apply find_best_fit_exact_measure. Qed.



(** ** [_find_best_match] *)

Lemma le_lt_false_cases d tol f :
  le_float d tol && lt_float d f = false ->
  le_float d tol = true -> lt_float d f = false.
Proof. intros H Hle. rewrite Hle in H. exact H. Qed.

Section BestMatch.

Variables x_val y_val : Q.
Variables ideal_df training_df : DataFrame.

Let eval := candidate_eval x_val y_val ideal_df training_df.
Let loop := best_match_loop x_val y_val ideal_df training_df.

Lemma best_match_loop_step idx ideal_func rest min_deviation best_fit :
  loop idx (ideal_func :: rest) min_deviation best_fit =
  (e <- eval idx ideal_func ;;
   if le_float (fst e) (snd e) && lt_float (fst e) min_deviation
   then loop (S idx) rest (Fin (fst e)) (Some (idx + 1)%nat)
   else loop (S idx) rest min_deviation best_fit).
Proof.
  unfold loop, eval, candidate_eval. simpl.
  destruct (loc ideal_df x_val ideal_func) as [e|cells]; simpl; trivial.
  destruct (max_allowed_deviation training_df ideal_df idx ideal_func) as [e|tol];
    simpl; trivial.
  destruct (scalar cells) as [e|v]; simpl; trivial.
Qed.

(** The loop raises as soon as one candidate cannot be evaluated, so a
    returning loop has evaluated all of them. *)
Lemma best_match_loop_evaluates funcs : forall idx min_deviation best_fit r,
  loop idx funcs min_deviation best_fit = Ok r ->
  forall j ideal_func, nth_error funcs j = Some ideal_func ->
    exists d tol, eval (idx + j)%nat ideal_func = Ok (d, tol).
Proof.
  induction funcs as [|f rest IH]; intros idx min_deviation best_fit r H j ideal_func Hj.
  - destruct j; discriminate.
  - rewrite best_match_loop_step in H. inv_bind H. destruct a as [d tol].
    destruct j as [|j]; simpl in Hj.
    + injection Hj as <-. rewrite Nat.add_0_r. eauto.
    + replace (idx + S j)%nat with (S idx + j)%nat by lia.
      destruct (le_float (fst (d, tol)) (snd (d, tol)) && _); eapply IH; eauto.
Qed.


(** What a returning loop returns, relative to the running minimum it
    starts from.  Either no candidate is both eligible and strictly closer
    than the running minimum, and the running pair is returned unchanged; or
    the returned candidate is eligible, strictly closer than the running
    minimum, at least as close as every eligible candidate and strictly
    closer than the eligible candidates before it. *)
Lemma best_match_loop_spec funcs : forall idx min_deviation best_fit r m,
  loop idx funcs min_deviation best_fit = Ok (r, m) ->
  (r = best_fit /\ m = min_deviation /\
   forall j ideal_func d tol,
     nth_error funcs j = Some ideal_func ->
     eval (idx + j)%nat ideal_func = Ok (d, tol) ->
     le_float d tol && lt_float d min_deviation = false)
  \/
  (exists j ideal_func d tol,
      nth_error funcs j = Some ideal_func /\
      eval (idx + j)%nat ideal_func = Ok (d, tol) /\
      r = Some (idx + j + 1)%nat /\ m = Fin d /\
      le_float d tol = true /\ lt_float d min_deviation = true /\
      forall j' ideal_func' d' tol',
        nth_error funcs j' = Some ideal_func' ->
        eval (idx + j')%nat ideal_func' = Ok (d', tol') ->
        le_float d' tol' = true ->
        d <= d' /\ ((j' < j)%nat -> d < d')).
Proof.
  induction funcs as [|f rest IH]; intros idx min_deviation best_fit r m H.
  - unfold loop in H. simpl in H. injection H as <- <-. left.
    split; [reflexivity | split; [reflexivity | ]].
    intros [|j] ? ? ? Hj; discriminate.
  - rewrite best_match_loop_step in H. inv_bind H. destruct a as [d0 tol0].
    simpl fst in H; simpl snd in H.
    destruct (le_float d0 tol0 && lt_float d0 min_deviation) eqn:Hcond;
      apply IH in H;
      destruct H as [(Hr & Hm & Hall) |
                     (j & g & d & tol & Hj & Hd & Hr & Hm & Hle & Hlt & Hmin)].
    + (* the head is taken and nothing after it is closer *)
      apply andb_true_iff in Hcond. destruct Hcond as [Hle0 Hlt0].
      right. exists 0%nat, f, d0, tol0. rewrite Nat.add_0_r.
      repeat split; trivial.
      * destruct j' as [|j']; simpl in H.
        -- injection H as <-. rewrite Nat.add_0_r in H0.
           assert (d' = d0) by congruence. subst d'. apply Qle_refl.
        -- replace (idx + S j')%nat with (S idx + j')%nat in H0 by lia.
           specialize (Hall _ _ _ _ H H0).
           apply le_lt_false_cases in Hall; trivial.
           simpl in Hall. now apply Qlt_bool_false_iff.
      * intros Hlt. inversion Hlt.
    + (* the head is taken, then a later candidate is strictly closer *)
      apply andb_true_iff in Hcond. destruct Hcond as [Hle0 Hlt0].
      simpl in Hlt. apply Qlt_bool_iff in Hlt.
      right. exists (S j), g, d, tol.
      replace (idx + S j)%nat with (S idx + j)%nat by lia.
      repeat split; trivial.
      * now apply lt_float_trans with d0.
      * destruct j' as [|j']; simpl in H.
        -- injection H as <-. rewrite Nat.add_0_r in H0.
           assert (d' = d0) by congruence. subst d'. now apply Qlt_le_weak.
        -- replace (idx + S j')%nat with (S idx + j')%nat in H0 by lia.
           now apply (Hmin _ _ _ _ H H0 H1).
      * destruct j' as [|j']; simpl in H; intros Hj'.
        -- injection H as <-. rewrite Nat.add_0_r in H0.
           assert (d' = d0) by congruence. now subst d'.
        -- replace (idx + S j')%nat with (S idx + j')%nat in H0 by lia.
           apply (Hmin _ _ _ _ H H0 H1). lia.
    + (* the head is passed over and so is everything after it *)
      left. repeat split; trivial.
      intros [|j] g d tol Hj Hd; simpl in Hj.
      * injection Hj as <-. rewrite Nat.add_0_r in Hd.
        assert (Heq : (d, tol) = (d0, tol0)) by congruence.
        injection Heq as -> ->. exact Hcond.
      * replace (idx + S j)%nat with (S idx + j)%nat in Hd by lia. eauto.
    + (* the head is passed over, a later candidate is taken *)
      right. exists (S j), g, d, tol.
      replace (idx + S j)%nat with (S idx + j)%nat by lia.
      repeat split; trivial.
      * destruct j' as [|j']; simpl in H.
        -- injection H as <-. rewrite Nat.add_0_r in H0.
           assert (Heq : (d', tol') = (d0, tol0)) by congruence.
           injection Heq as -> ->.
           apply le_lt_false_cases in Hcond; trivial.
           apply Qlt_le_weak. now apply lt_float_between with min_deviation.
        -- replace (idx + S j')%nat with (S idx + j')%nat in H0 by lia.
           now apply (Hmin _ _ _ _ H H0 H1).
      * destruct j' as [|j']; simpl in H; intros Hj'.
        -- injection H as <-. rewrite Nat.add_0_r in H0.
           assert (Heq : (d', tol') = (d0, tol0)) by congruence.
           injection Heq as -> ->.
           apply le_lt_false_cases in Hcond; trivial.
           now apply lt_float_between with min_deviation.
        -- replace (idx + S j')%nat with (S idx + j')%nat in H0 by lia.
           apply (Hmin _ _ _ _ H H0 H1). lia.
Qed.

End BestMatch.




(** ** [map_test_data] *)


Lemma match_rows_raises test_rows funcs ideal_df training_df x y e :
  In (x, y) test_rows ->
  _find_best_match x y funcs ideal_df training_df = Raise e ->
  exists e', match_rows test_rows funcs ideal_df training_df = Raise e'.
Proof.
  induction test_rows as [|[x0 y0] rest IH]; intros Hin Hraise; [destruct Hin | ].
  simpl. destruct (_find_best_match x0 y0 funcs ideal_df training_df) as [e0|r0] eqn:E0.
  - simpl. eauto.
  - destruct Hin as [Heq | Hin]; [injection Heq as -> ->; congruence | ].
    destruct (IH Hin Hraise) as [e' ->]. simpl. eauto.
Qed.



(** ** Failures of [_find_best_fit] *)

(** The selection never reads a row label. *)
Lemma best_fit_loop_ignores_index values table cols :
  forall i1 i2 j1 j2 min_mse best_func,
    best_fit_loop (mkSeries i1 values) (mkDataFrame j1 table) cols min_mse best_func
    = best_fit_loop (mkSeries i2 values) (mkDataFrame j2 table) cols min_mse best_func.
Proof.
  induction cols as [|c rest IH]; intros; [reflexivity | ].
  simpl. unfold getitem. simpl.
  destruct (assoc c table) as [v|]; simpl; trivial.
  destruct (mean_squared_error values v) as [e|m]; simpl; trivial.
  destruct (lt_float m min_mse); apply IH.
Qed.

Lemma best_fit_loop_first_raises training_series ideal_df c v rest min_mse best_func :
  assoc c (df_columns ideal_df) = Some v ->
  (List.length (s_values training_series) =? List.length v)%nat
    && negb (List.length (s_values training_series) =? 0)%nat = false ->
  best_fit_loop training_series ideal_df (c :: rest) min_mse best_func
  = Raise ValueError.
Proof.
  intros Hc Hbad. simpl. unfold getitem. rewrite Hc. simpl.
  unfold mean_squared_error.
  destruct (List.length (s_values training_series) =? List.length v)%nat;
    simpl; trivial.
  destruct (List.length (s_values training_series) =? 0)%nat; simpl; trivial.
  discriminate.
Qed.

(** C7 as the code has it, [_find_best_fit]: with an empty candidate table
    the selection raises nothing and returns None.  With a candidate table
    whose first column has another number of samples than the training
    series, or with a training series without samples, the selection raises
    ValueError, the error of [mean_squared_error], at the first column and
    returns nothing.  The row labels (the x values) of the training series
    and of the candidate table play no part in the result: no difference
    between them makes the selection fail. *)
Theorem find_best_fit_failure_cases (training_series : Series) (ideal_df : DataFrame) :
  match df_columns ideal_df with
  | [] => _find_best_fit training_series ideal_df = Ok None
  | (_, v) :: _ =>
      if (List.length (s_values training_series) =? List.length v)%nat
         && negb (List.length (s_values training_series) =? 0)%nat
      then True
      else _find_best_fit training_series ideal_df = Raise ValueError
  end
  /\
  forall training_x ideal_x,
    _find_best_fit (mkSeries training_x (s_values training_series))
                   (mkDataFrame ideal_x (df_columns ideal_df))
    = _find_best_fit training_series ideal_df.
Proof.
  split.
  - unfold _find_best_fit, columns.
    destruct (df_columns ideal_df) as [|[c v] rest] eqn:Hcols; [reflexivity | ].
    destruct ((List.length (s_values training_series) =? List.length v)%nat
              && negb (List.length (s_values training_series) =? 0)%nat) eqn:Hok;
      trivial.
    simpl map. apply best_fit_loop_first_raises with v; trivial.
    rewrite Hcols. simpl. now rewrite String.eqb_refl.
  - intros training_x ideal_x. unfold _find_best_fit, columns. simpl.
    destruct training_series as [i v], ideal_df as [j table]. simpl.
    apply best_fit_loop_ignores_index.
Qed.

(** The claim C7 fails on the code.  A candidate table without columns
    makes the selection return None, where the claim has it fail; a
    training series without samples makes it fail with ValueError, the only
    failure there is; and a training series and a candidate table sampled
    at different x values are compared position by position without any
    failure. *)
Lemma find_best_fit_empty_candidates_returns_None :
  (_find_best_fit (mkSeries [0; 1; 2] [0; 1; 2]) (mkDataFrame [0; 1; 2] []) = Ok None /\
   forall e, _find_best_fit (mkSeries [0; 1; 2] [0; 1; 2]) (mkDataFrame [0; 1; 2] [])
             <> Raise e) /\
  _find_best_fit (mkSeries [] []) scenario_ideal_df = Raise ValueError /\
  _find_best_fit (mkSeries [5; 6; 7] [0; 1; 2]) scenario_ideal_df = Ok (Some "y1"%string).
Proof.
  split; [split; [reflexivity | intros e; discriminate] | ].
  split; vm_compute; reflexivity.
Qed.

(** ** A row label missing from the candidate table *)

Lemma cells_at_absent x index : absent x index ->
  forall values, cells_at x index values = [].
Proof.
  induction index as [|l index IH]; intros Habs values; [reflexivity | ].
  destruct values as [|v values]; [reflexivity | ]. simpl.
  destruct (Qeq_bool l x) eqn:E.
  - apply Qeq_bool_iff in E. exfalso. apply (Habs l); [now left | exact E].
  - apply IH. intros l' Hin. apply Habs. now right.
Qed.

Lemma loc_absent ideal_df x ideal_func :
  absent x (df_index ideal_df) -> loc ideal_df x ideal_func = Raise KeyError.
Proof.
  intros Habs. unfold loc, getitem_opt, getitem.
  destruct ideal_func as [c|]; [ | reflexivity].
  destruct (assoc c (df_columns ideal_df)) as [v|]; [ | reflexivity].
  simpl. now rewrite cells_at_absent.
Qed.

Lemma find_best_match_absent x y f funcs ideal_df training_df :
  absent x (df_index ideal_df) ->
  _find_best_match x y (f :: funcs) ideal_df training_df = Raise KeyError.
Proof.
  intros Habs. unfold _find_best_match. simpl. now rewrite loc_absent.
Qed.

Lemma best_fits_length training_df ideal_df numbers :
  forall funcs, best_fits training_df ideal_df numbers = Ok funcs ->
                List.length funcs = List.length numbers.
Proof.
  induction numbers as [|i rest IH]; intros funcs H.
  - injection H as <-. reflexivity.
  - simpl in H. inv_bind H. inv_bind H. inv_bind H. injection H as <-.
    simpl. f_equal. now apply IH.
Qed.

Lemma set_index_read_sql table xs :
  assoc "x" table = Some xs ->
  set_index (read_sql table) "x" = Ok (mkDataFrame xs (remove_col "x" table)).
Proof. intros H. unfold set_index, read_sql. simpl. now rewrite H. Qed.

(** C3 as the code has it, [_find_best_match] and [map_test_data]: when the
    x value of a test point is not a row label of the candidate table, the
    lookup of line 181 raises KeyError for the first candidate, the matcher
    raises KeyError for that point, and a run of [map_test_data] whose test
    data contains the point ends with an exception instead of a result. *)
Theorem missing_x_aborts_run
    (test_rows : list (Q * Q)) (ideal_table training_table : list (string * list Q))
    (xs : list Q) (x y : Q) :
  assoc "x" ideal_table = Some xs ->
  absent x xs ->
  In (x, y) test_rows ->
  exists ideal_df,
    set_index (read_sql ideal_table) "x" = Ok ideal_df /\
    (forall ideal_func, loc ideal_df x ideal_func = Raise KeyError) /\
    (forall f funcs training_df,
        _find_best_match x y (f :: funcs) ideal_df training_df = Raise KeyError) /\
    exists e, map_test_data test_rows ideal_table training_table = Raise e.
Proof.
  intros Hx Habs Hin.
  exists (mkDataFrame xs (remove_col "x" ideal_table)).
  split; [now apply set_index_read_sql | ].
  split; [intros; now apply loc_absent | ].
  split; [intros; now apply find_best_match_absent | ].
  unfold map_test_data. rewrite (set_index_read_sql _ _ Hx), bind_ret_l.
  destruct (best_fits (read_sql training_table) _ (seq 1 4)) as [e|funcs] eqn:Hfits.
  - rewrite bind_raise_l. eauto.
  - rewrite bind_ret_l. apply best_fits_length in Hfits.
    destruct funcs as [|f funcs]; [discriminate | ].
    destruct (match_rows_raises test_rows (f :: funcs)
                (mkDataFrame xs (remove_col "x" ideal_table))
                (read_sql training_table) x y KeyError Hin) as [e' He'].
    { now apply find_best_match_absent. }
    rewrite He', bind_raise_l. eauto.
Qed.

(** The claim C3 fails on the code: on the tables of the scenario, the test
    point (3, 0), whose x is not in the candidates' domain, aborts the run
    with KeyError, although the point (1, 1) before it has a match. *)
Lemma missing_x_scenario_aborts :
  map_test_data [(1, 1); (3, 0)] scenario_ideal scenario_training = Raise KeyError /\
  ~ exists rows,
      map_test_data [(1, 1); (3, 0)] scenario_ideal scenario_training = Ok rows.
Proof.
  split; [vm_compute; reflexivity | intros [rows H]; vm_compute in H; discriminate].
Qed.


(** ** The code on concrete tables *)

(** C4, line 182 on the tables sampled at x in {1, 2, 3}, where the training
    series y1 and the candidate y1 agree at every x.  The subtraction pairs
    the training row at position i with the candidate row labelled x = i, so
    the code's tolerance is np.sqrt(2) * 1, where the greatest difference
    over the shared x values is 0; with it the test point (1, 2), at
    deviation 1 from the candidate, is assigned. *)
Theorem max_allowed_deviation_pairs_position_with_label :
  max_allowed_deviation (read_sql shifted_training) shifted_ideal_df 0 (Some "y1"%string)
    = Ok (Fin (np_sqrt2 * 1)) /\
  spec_max_allowed_deviation [1; 2; 3] [1; 2; 3] (mkSeries [1; 2; 3] [1; 2; 3])
    = Fin (np_sqrt2 * 0) /\
  set_index (read_sql shifted_ideal) "x" = Ok shifted_ideal_df /\
  map_test_data [(1, 2)] shifted_ideal shifted_training
    = Ok [mkRow 1 2 (Fin 1) (Some 1%nat)].
Proof. repeat split; vm_compute; reflexivity. Qed.

(** C8, [map_test_data] on tables whose four training series all select the
    candidate y2: the row recorded for the test point (1, 1) names the
    candidate 1, the position of the first training series, not y2. *)
Theorem ideal_func_no_is_training_position :
  set_index (read_sql swapped_ideal) "x" = Ok swapped_ideal_df /\
  best_fits (read_sql swapped_training) swapped_ideal_df (seq 1 4)
    = Ok [Some "y2"; Some "y2"; Some "y2"; Some "y2"]%string /\
  map_test_data [(1, 1)] swapped_ideal swapped_training
    = Ok [mkRow 1 1 (Fin 0) (Some 1%nat)].
Proof. repeat split; vm_compute; reflexivity. Qed.

(** C2, [_find_best_match] on the tables sampled at x in {1, 2, 3}: the
    test point (2, 3) is assigned with deviation 1, although the
    max-allowed-deviation of the training series that selected the
    candidate, np.sqrt(2) times the greatest difference over the shared x,
    is 0: the returned deviation exceeds it. *)
Theorem assigned_deviation_exceeds_max_allowed :
  best_fits (read_sql shifted_training) shifted_ideal_df (seq 1 4) = Ok shifted_funcs /\
  _find_best_match 2 3 shifted_funcs shifted_ideal_df (read_sql shifted_training)
    = Ok (Some 1%nat, Fin 1) /\
  spec_max_allowed_deviation [1; 2; 3] [1; 2; 3] (mkSeries [1; 2; 3] [1; 2; 3])
    = Fin (np_sqrt2 * 0) /\
  le_float 1 (Fin (np_sqrt2 * 0)) = false.
Proof. repeat split; vm_compute; reflexivity. Qed.

(** C5, [_find_best_match] on the curve y = x sampled at x in {-3, -2, -1}:
    the test point (-3, -3) lies on the selected candidate, so its
    deviation 0 is within the candidate's max-allowed-deviation 0 and the
    candidate is eligible; the code computes the tolerance NaN and returns
    the point unassigned. *)
Theorem eligible_point_left_unassigned :
  best_fits (read_sql negative_training) negative_ideal_df (seq 1 4) = Ok negative_funcs /\
  loc negative_ideal_df (-3) (Some "y1"%string) = Ok [-3] /\
  spec_max_allowed_deviation [-3; -2; -1] [-3; -2; -1] (mkSeries [-3; -2; -1] [-3; -2; -1])
    = Fin (np_sqrt2 * 0) /\
  le_float (Qabs (-3 - -3)) (Fin (np_sqrt2 * 0)) = true /\
  max_allowed_deviation (read_sql negative_training) negative_ideal_df 0
    (Some "y1"%string) = Ok NaN /\
  _find_best_match (-3) (-3) negative_funcs negative_ideal_df (read_sql negative_training)
    = Ok (None, Inf).
Proof. repeat split; vm_compute; reflexivity. Qed.



(** ** The theorems at the scenario of the specification *)







Lemma missing_x_aborts_run_scenario :
  exists ideal_df,
    set_index (read_sql scenario_ideal) "x" = Ok ideal_df /\
    (forall ideal_func, loc ideal_df 3 ideal_func = Raise KeyError) /\
    (forall f funcs training_df,
        _find_best_match 3 0 (f :: funcs) ideal_df training_df = Raise KeyError) /\
    exists e, map_test_data [(1, 1); (3, 0)] scenario_ideal scenario_training = Raise e.
Proof.
  apply (missing_x_aborts_run [(1, 1); (3, 0)] scenario_ideal scenario_training
           [0; 1; 2] 3 0).
  - reflexivity.
  - intros l [<- | [<- | [<- | []]]] H; vm_compute in H; discriminate.
  - right. left. reflexivity.
Defined.

(** * Further properties of the code *)

(** ** The rows of [map_test_data] *)

Lemma match_rows_points test_rows funcs ideal_df training_df : forall rows,
  match_rows test_rows funcs ideal_df training_df = Ok rows ->
  map (fun r => (row_x r, row_y r)) rows = test_rows.
Proof.
  induction test_rows as [|[x y] rest IH]; intros rows H.
  - injection H as <-. reflexivity.
  - simpl in H. inv_bind H. inv_bind H. injection H as <-.
    simpl. f_equal. now apply IH.
Qed.

Lemma match_rows_In test_rows funcs ideal_df training_df : forall rows row,
  match_rows test_rows funcs ideal_df training_df = Ok rows ->
  In row rows ->
  exists r,
    _find_best_match (row_x row) (row_y row) funcs ideal_df training_df = Ok r /\
    delta_y row = snd r /\ ideal_func_no row = fst r.
Proof.
  induction test_rows as [|[x y] rest IH]; intros rows row H Hin.
  - injection H as <-. destruct Hin.
  - simpl in H. inv_bind H. inv_bind H. injection H as <-.
    destruct Hin as [<- | Hin]; [simpl; eauto | eauto].
Qed.

Lemma map_test_data_Ok test_rows ideal_table training_table rows :
  map_test_data test_rows ideal_table training_table = Ok rows ->
  exists ideal_df funcs,
    set_index (read_sql ideal_table) "x" = Ok ideal_df /\
    best_fits (read_sql training_table) ideal_df (seq 1 4) = Ok funcs /\
    match_rows test_rows funcs ideal_df (read_sql training_table) = Ok rows.
Proof.
  unfold map_test_data. intros H. inv_bind H. inv_bind H. inv_bind H. inv_bind H.
  injection H as <-. eauto.
Qed.

Lemma map_test_data_of_rows test_rows ideal_table training_table ideal_df funcs r rows :
  set_index (read_sql ideal_table) "x" = Ok ideal_df ->
  best_fits (read_sql training_table) ideal_df (seq 1 4) = Ok funcs ->
  match_rows test_rows funcs ideal_df (read_sql training_table) = Ok (r :: rows) ->
  map_test_data test_rows ideal_table training_table = Ok (r :: rows).
Proof.
  intros Hidx Hfits Hrows. unfold map_test_data.
  rewrite Hidx, bind_ret_l, Hfits, bind_ret_l, Hrows. reflexivity.
Qed.

Lemma map_test_data_nonempty test_rows ideal_table training_table rows :
  map_test_data test_rows ideal_table training_table = Ok rows -> rows <> [].
Proof.
  unfold map_test_data. intros H. inv_bind H. inv_bind H. inv_bind H. inv_bind H.
  injection H as <-. destruct a1; [discriminate | discriminate].
Qed.

(** X1, [map_test_data]: a run that returns has recorded exactly one row
    per test point, in the order of the test data, each row carrying the x
    and y of its test point. *)
Theorem map_test_data_one_row_per_point
    (test_rows : list (Q * Q)) (ideal_table training_table : list (string * list Q))
    (rows : list ResultRow) :
  map_test_data test_rows ideal_table training_table = Ok rows ->
  map (fun r => (row_x r, row_y r)) rows = test_rows.
Proof.
  intros H. apply map_test_data_Ok in H.
  destruct H as (ideal_df & funcs & _ & _ & H). now apply match_rows_points in H.
Qed.

(** What the matcher can return: the initial pair, or the position and the
    deviation of an eligible candidate of the list. *)
Lemma find_best_match_cases x_val y_val funcs ideal_df training_df b m :
  _find_best_match x_val y_val funcs ideal_df training_df = Ok (b, m) ->
  (b = None /\ m = Inf) \/
  (exists j f d tol,
      nth_error funcs j = Some f /\
      candidate_eval x_val y_val ideal_df training_df j f = Ok (d, tol) /\
      b = Some (j + 1)%nat /\ m = Fin d /\ le_float d tol = true).
Proof.
  intros H. apply best_match_loop_spec in H.
  destruct H as [(-> & -> & _) | (j & g & d & tol & Hj & Hd & -> & -> & Hle & _)].
  - now left.
  - right. exists j, g, d, tol. auto.
Qed.

(** X2, [_find_best_match]: the pair returned by the matcher is either
    (None, inf), or a number between 1 and the number of candidates together
    with a finite deviation; a null candidate never comes with a finite
    deviation, nor a candidate with inf. *)
Theorem find_best_match_result_shape
    (x_val y_val : Q) (best_fit_funcs : list (option string))
    (ideal_df training_df : DataFrame) (b : option nat) (m : pyfloat) :
  _find_best_match x_val y_val best_fit_funcs ideal_df training_df = Ok (b, m) ->
  (b = None /\ m = Inf) \/
  (exists k d, b = Some k /\ (1 <= k <= List.length best_fit_funcs)%nat /\
               m = Fin d).
Proof.
  intros H. apply find_best_match_cases in H.
  destruct H as [H | (j & f & d & tol & Hj & Hd & -> & -> & _)]; [now left | right].
  exists (j + 1)%nat, d. repeat split; trivial.
  - lia.
  - assert (j < List.length best_fit_funcs)%nat
      by (apply nth_error_Some; congruence). lia.
Qed.

(** X3, [map_test_data]: in every row of a run that returns,
    [ideal_func_no] is null and [delta_y] is inf, or [ideal_func_no] is one
    of 1, 2, 3, 4 and [delta_y] is a finite deviation. *)
Theorem map_test_data_row_shape
    (test_rows : list (Q * Q)) (ideal_table training_table : list (string * list Q))
    (rows : list ResultRow) (row : ResultRow) :
  map_test_data test_rows ideal_table training_table = Ok rows ->
  In row rows ->
  (ideal_func_no row = None /\ delta_y row = Inf) \/
  (exists k d, ideal_func_no row = Some k /\ (1 <= k <= 4)%nat /\
               delta_y row = Fin d).
Proof.
  intros H Hin. apply map_test_data_Ok in H.
  destruct H as (ideal_df & funcs & _ & Hfits & Hrows).
  apply best_fits_length in Hfits. simpl in Hfits.
  destruct (match_rows_In _ _ _ _ _ _ Hrows Hin) as ([b m] & Hr & Hd & Hn).
  simpl in Hd, Hn. rewrite Hd, Hn.
  apply find_best_match_cases in Hr.
  destruct Hr as [H | (j & f & d & tol & Hj & He & -> & -> & _)]; [now left | right].
  exists (j + 1)%nat, d. repeat split; trivial.
  - lia.
  - assert (j < List.length funcs)%nat by (apply nth_error_Some; congruence). lia.
Qed.

Lemma match_rows_app funcs ideal_df training_df rows1 rows2 : forall test1 test2,
  match_rows test1 funcs ideal_df training_df = Ok rows1 ->
  match_rows test2 funcs ideal_df training_df = Ok rows2 ->
  match_rows (test1 ++ test2) funcs ideal_df training_df = Ok (rows1 ++ rows2).
Proof.
  intros test1. revert rows1.
  induction test1 as [|[x y] rest IH]; intros rows1 test2 H1 H2.
  - injection H1 as <-. exact H2.
  - simpl in H1. inv_bind H1. inv_bind H1. injection H1 as <-.
    simpl. rewrite Ha. simpl. rewrite (IH _ _ Ha0 H2). reflexivity.
Qed.

(** X4, [map_test_data]: test points are matched independently of one
    another.  When the run on one batch of test points and the run on
    another batch both return, the run on the two batches one after the
    other returns the rows of the first followed by the rows of the
    second. *)
Theorem map_test_data_app
    (test1 test2 : list (Q * Q)) (ideal_table training_table : list (string * list Q))
    (rows1 rows2 : list ResultRow) :
  map_test_data test1 ideal_table training_table = Ok rows1 ->
  map_test_data test2 ideal_table training_table = Ok rows2 ->
  map_test_data (test1 ++ test2) ideal_table training_table = Ok (rows1 ++ rows2).
Proof.
  intros H1 H2. pose proof (map_test_data_nonempty _ _ _ _ H1) as Hne.
  apply map_test_data_Ok in H1, H2.
  destruct H1 as (ideal_df & funcs & Hidx & Hfits & Hrows1).
  destruct H2 as (ideal_df' & funcs' & Hidx' & Hfits' & Hrows2).
  assert (ideal_df' = ideal_df) by congruence. subst ideal_df'.
  assert (funcs' = funcs) by congruence. subst funcs'.
  destruct rows1 as [|r rows1]; [congruence | ].
  apply map_test_data_of_rows with ideal_df funcs; trivial.
  now apply (match_rows_app _ _ _ (r :: rows1) rows2).
Qed.

(** ** A candidate table without candidates *)




(** ** The tolerance of line 182 *)








(** ** The candidates that [map_test_data] selects *)

Lemma find_best_fit_Some_In training_series ideal_df c :
  _find_best_fit training_series ideal_df = Ok (Some c) ->
  In c (columns ideal_df).
Proof.
  unfold _find_best_fit. intros H.
  pose proof (best_fit_loop_spec _ _ _ _ _ _ H) as
    [[Hr _] | (pre & c' & post & m & Hc & Hr & _)]; [discriminate | ].
  injection Hr as ->. rewrite Hc. apply in_or_app. right. now left.
Qed.

Lemma remove_col_In name cols c :
  In c (map fst (remove_col name cols)) -> In c (map fst cols).
Proof.
  induction cols as [|[c0 v0] rest IH]; simpl; trivial.
  destruct (String.eqb name c0); simpl; intuition.
Qed.

Lemma remove_col_NoDup name cols :
  NoDup (map fst cols) -> ~ In name (map fst (remove_col name cols)).
Proof.
  induction cols as [|[c0 v0] rest IH]; simpl; intros Hnd; [tauto | ].
  inversion Hnd as [|? ? Hnotin Hnd']; subst.
  destruct (String.eqb_spec name c0) as [-> | Hne]; trivial.
  simpl. intros [H | H]; [congruence | now apply IH].
Qed.

Lemma best_fits_In training_df ideal_df numbers : forall funcs f,
  best_fits training_df ideal_df numbers = Ok funcs ->
  In f funcs ->
  exists t, _find_best_fit t ideal_df = Ok f.
Proof.
  induction numbers as [|i rest IH]; intros funcs f H Hin.
  - injection H as <-. destruct Hin.
  - simpl in H. inv_bind H. inv_bind H. inv_bind H. injection H as <-.
    destruct Hin as [<- | Hin]; eauto.
Qed.

(** X9, [map_test_data] lines 114-120: with distinct column names in the
    ideal table, a run whose selection returns has four best fits, and each
    best fit that is not None is a column of the ideal table other than x:
    the x column, moved to the index, is never a candidate. *)
Theorem best_fits_are_candidate_columns
    (ideal_table training_table : list (string * list Q))
    (ideal_df : DataFrame) (best_fit_funcs : list (option string)) :
  NoDup (map fst ideal_table) ->
  set_index (read_sql ideal_table) "x" = Ok ideal_df ->
  best_fits (read_sql training_table) ideal_df (seq 1 4) = Ok best_fit_funcs ->
  List.length best_fit_funcs = 4%nat /\
  forall c, In (Some c) best_fit_funcs ->
    c <> "x"%string /\ In c (map fst ideal_table).
Proof.
  intros Hnd Hidx Hfits. split; [now apply best_fits_length in Hfits | ].
  intros c Hin. destruct (best_fits_In _ _ _ _ _ Hfits Hin) as [t Ht].
  apply find_best_fit_Some_In in Ht.
  unfold set_index, read_sql in Hidx. simpl in Hidx.
  destruct (assoc "x" ideal_table) as [xs|]; [ | discriminate].
  injection Hidx as <-. unfold columns in *. simpl in *. split.
  - intros ->. now apply (remove_col_NoDup "x" ideal_table).
  - eapply remove_col_In; eauto.
Qed.

(** ** [load_data_to_db] and [main] *)

Lemma load_data_to_db_values t1 t2 ideal_df :
  map snd (df_columns t1) = map snd (df_columns t2) ->
  load_data_to_db t1 ideal_df = load_data_to_db t2 ideal_df.
Proof.
  intros H. unfold load_data_to_db, set_columns.
  assert (Hlen : List.length (df_columns t1) = List.length (df_columns t2)).
  { rewrite <- (length_map snd (df_columns t1)), H. apply length_map. }
  rewrite Hlen, H.
  destruct (_ =? _)%nat; [ | reflexivity].
  rewrite !bind_ret_l. unfold to_sql. simpl df_columns. reflexivity.
Qed.

(** X11, [main]: the training file is read by position.  Two training
    frames holding the same values column by column give the same result,
    rows or exception, whatever their column names and row labels are. *)
Theorem main_ignores_training_headers
    (training1 training2 ideal_csv : DataFrame) (test_rows : list (Q * Q)) :
  map snd (df_columns training1) = map snd (df_columns training2) ->
  main training1 ideal_csv test_rows = main training2 ideal_csv test_rows.
Proof.
  intros H. unfold main. now rewrite (load_data_to_db_values _ _ _ H).
Qed.

(** ** The rows that the visualizer draws *)

Lemma subset_In test_data i r :
  In r (subset test_data i) <-> In r test_data /\ ideal_func_no r = Some i.
Proof.
  unfold subset. rewrite filter_In. split; intros [Hin H]; split; trivial.
  - destruct (ideal_func_no r) as [k|]; [ | discriminate].
    apply Nat.eqb_eq in H. now subst.
  - rewrite H. apply Nat.eqb_refl.
Qed.

(** X12, [visualize_data] on the result of [map_test_data]: every row with
    an assigned candidate belongs to the subset drawn for exactly one of the
    four numbers 1 to 4, and every row of such a subset is an assigned row
    of the result; a row with a null candidate is in none of them. *)
Theorem subsets_cover_assigned_rows
    (test_rows : list (Q * Q)) (ideal_table training_table : list (string * list Q))
    (rows : list ResultRow) (row : ResultRow) :
  map_test_data test_rows ideal_table training_table = Ok rows ->
  In row rows ->
  match ideal_func_no row with
  | Some k => In k (seq 1 4) /\ In row (subset rows k) /\
              forall i, In row (subset rows i) -> i = k
  | None => forall i, ~ In row (subset rows i)
  end.
Proof.
  intros H Hin. apply map_test_data_Ok in H.
  destruct H as (ideal_df & funcs & _ & Hfits & Hrows).
  apply best_fits_length in Hfits. simpl in Hfits.
  destruct (match_rows_In _ _ _ _ _ _ Hrows Hin) as ([b m] & Hr & _ & Hn).
  simpl in Hn. destruct (ideal_func_no row) as [k|] eqn:Hk.
  - subst b. apply find_best_match_cases in Hr.
    destruct Hr as [[H _] | (j & f & d & tol & Hj & _ & Hb & _)]; [discriminate | ].
    injection Hb as ->.
    assert (j < List.length funcs)%nat by (apply nth_error_Some; congruence).
    split; [apply in_seq; lia | split].
    + apply subset_In. auto.
    + intros i Hi. apply subset_In in Hi. destruct Hi as [_ Hi]. congruence.
  - intros i Hi. apply subset_In in Hi. destruct Hi as [_ Hi]. congruence.
Qed.

(** ** The further properties at concrete tables *)

Lemma map_test_data_one_row_per_point_scenario :
  map (fun r => (row_x r, row_y r)) scenario_rows = [(1, 1); (1, 5)].
Proof.
  apply (map_test_data_one_row_per_point [(1, 1); (1, 5)]
           scenario_ideal scenario_training scenario_rows).
  vm_compute. reflexivity.
Defined.

Lemma find_best_match_result_shape_scenario :
  (Some 1%nat = None /\ Fin 0 = Inf) \/
  (exists k d, Some 1%nat = Some k /\ (1 <= k <= List.length scenario_funcs)%nat /\
               Fin 0 = Fin d).
Proof.
  apply (find_best_match_result_shape 1 1 scenario_funcs
           scenario_ideal_df scenario_training_df (Some 1%nat) (Fin 0)).
  vm_compute. reflexivity.
Defined.

Lemma map_test_data_row_shape_scenario :
  (ideal_func_no (mkRow 1 5 Inf None) = None /\ delta_y (mkRow 1 5 Inf None) = Inf) \/
  (exists k d, ideal_func_no (mkRow 1 5 Inf None) = Some k /\ (1 <= k <= 4)%nat /\
               delta_y (mkRow 1 5 Inf None) = Fin d).
Proof.
  apply (map_test_data_row_shape [(1, 1); (1, 5)] scenario_ideal scenario_training
           scenario_rows (mkRow 1 5 Inf None)).
  - vm_compute. reflexivity.
  - right. left. reflexivity.
Defined.

Lemma map_test_data_app_scenario :
  map_test_data ([(1, 1)] ++ [(1, 5)]) scenario_ideal scenario_training
  = Ok ([mkRow 1 1 (Fin 0) (Some 1%nat)] ++ [mkRow 1 5 Inf None]).
Proof.
  apply (map_test_data_app [(1, 1)] [(1, 5)] scenario_ideal scenario_training).
  - vm_compute. reflexivity.
  - vm_compute. reflexivity.
Defined.


Lemma best_fits_are_candidate_columns_scenario :
  List.length scenario_funcs = 4%nat /\
  forall c, In (Some c) scenario_funcs ->
    c <> "x"%string /\ In c (map fst scenario_ideal).
Proof.
  apply (best_fits_are_candidate_columns scenario_ideal scenario_training
           scenario_ideal_df scenario_funcs).
  - repeat (constructor; [simpl; intuition discriminate | ]). constructor.
  - vm_compute. reflexivity.
  - vm_compute. reflexivity.
Defined.

Lemma main_ignores_training_headers_scenario :
  main scenario_training_csv scenario_ideal_csv [(1, 1); (1, 5)]
  = main scenario_training_csv' scenario_ideal_csv [(1, 1); (1, 5)].
Proof.
  apply (main_ignores_training_headers scenario_training_csv scenario_training_csv'
           scenario_ideal_csv [(1, 1); (1, 5)]).
  reflexivity.
Defined.

Lemma subsets_cover_assigned_rows_scenario :
  In 1%nat (seq 1 4) /\
  In (mkRow 1 1 (Fin 0) (Some 1%nat)) (subset scenario_rows 1) /\
  forall i, In (mkRow 1 1 (Fin 0) (Some 1%nat)) (subset scenario_rows i) -> i = 1%nat.
Proof.
  apply (subsets_cover_assigned_rows [(1, 1); (1, 5)] scenario_ideal scenario_training
           scenario_rows (mkRow 1 1 (Fin 0) (Some 1%nat))).
  - vm_compute. reflexivity.
  - left. reflexivity.
Defined.

